(** * The loan-processing DAG ([dags/loan_data_processing.py])

    A shallow embedding of the workflow definition: the Python callables
    ([_is_data_local], [_extract_from_s3], [_branch],
    [_compute_general_aggregats], [_compute_loan_aggregats]), the two SQL
    statements handed to the Postgres operator, and the wiring of the tasks,
    followed by the properties of the pipeline.

    The world the callables act on is explicit: a file system, an object
    store, a relational store and the XCom key-value store of the run. *)

From Stdlib Require Import String Ascii List ZArith QArith Bool Lia.
From Stdlib Require Import Permutation.
From stdpp Require Import base option gmap strings.
Import ListNotations.

Local Open Scope string_scope.
Local Open Scope list_scope.

(** ** Python values and failures *)

(** The values that travel through XCom. *)
Inductive PyVal : Type :=
| PyNone
| PyBool (b : bool)
| PyInt (z : Z)
| PyFloat (q : Q)
| PyStr (s : string).

(** The exceptions a callable or an operator ends with. *)
Inductive PyExc : Type :=
| FileNotFoundError (path : string)
| FileExistsError (path : string)
| IsADirectoryError (path : string)
| EmptyDataError
| ParserError
| ClientError (bucket key : string)
| TypeError (name : string)
| IndexError
| OperationalError (what : string)
| UndefinedTable (relation : string)
| UndefinedColumn (column : string).

Inductive Result (A : Type) : Type :=
| Success (a : A)
| Failed (e : PyExc).
Arguments Success {A} a.
Arguments Failed {A} e.

Definition bind {A B : Type} (r : Result A) (k : A -> Result B) : Result B :=
  match r with
  | Success a => k a
  | Failed e => Failed e
  end.

Notation "x <- r ;; k" := (bind r (fun x => k))
  (at level 100, r at next level, k at level 200, right associativity).

(** [value is True]: identity with the singleton [True]. *)
Definition is_True (v : PyVal) : bool :=
  match v with
  | PyBool true => true
  | _ => false
  end.

(** ** XCom and the task instance *)

(** XCom entries are keyed by the pushing task and the key. *)
Record TaskInstance : Type := mkTI {
  ti_task_id : string;
  ti_xcom : gmap (string * string) PyVal
}.

Definition xcom_push (ti : TaskInstance) (key : string) (value : PyVal)
  : TaskInstance :=
  mkTI (ti_task_id ti) (<[(ti_task_id ti, key) := value]> (ti_xcom ti)).

(** A pull of an entry that was never pushed yields [None]. *)
Definition xcom_pull (ti : TaskInstance) (key task_ids : string) : PyVal :=
  match ti_xcom ti !! (task_ids, key) with
  | Some v => v
  | None => PyNone
  end.

(** ** The file system and [os.path] *)

Inductive Node : Type :=
| Dir
| File (content : string).

(** [os.path.exists]: true for a file and for a directory alike. *)
Definition os_path_exists (fs : gmap string Node) (path : string) : bool :=
  match fs !! path with
  | Some _ => true
  | None => false
  end.

Definition startswith_sep (s : string) : bool :=
  match s with
  | String c _ => Ascii.eqb c "/"%char
  | EmptyString => false
  end.

Fixpoint endswith_sep (s : string) : bool :=
  match s with
  | EmptyString => false
  | String c EmptyString => Ascii.eqb c "/"%char
  | String _ rest => endswith_sep rest
  end.

(** [os.path.join] (posixpath) on two components. *)
Definition os_path_join (a b : string) : string :=
  if startswith_sep b then b
  else if (String.eqb a "" || endswith_sep a)%bool then a ++ b
  else a ++ "/" ++ b.

(** ** Module constants *)

Definition AWS_S3_CONN_ID : string := "aws_default".
Definition SOURCE_S3_KEY : string := "data/raw-data/loan_data_small.csv".
Definition SOURCE_S3_BUCKET : string := "beranger-bucket-760254833251".
Definition DEST_PATH_FILE : string := "/opt/airflow/data/raw-data".

(** ** [_is_data_local] *)

Definition _is_data_local (fs : gmap string Node) (ti : TaskInstance)
    (datapath : string) : Result TaskInstance :=
  let is_local := os_path_exists fs datapath in
  Success (xcom_push ti "is_local" (PyBool is_local)).

(** ** [_branch] *)

Definition _branch (ti : TaskInstance) : Result string :=
  let value := xcom_pull ti "is_local" "is_data_local" in
  if is_True value then Success "log_data_is_local"
  else Success "log_data_is_remote".

(** ** [pandas.read_csv] and the data frame

    pandas is outside the repository. [read_csv] is modelled on plain
    comma-separated text with the defaults the call relies on: the first
    line is the header, empty lines are skipped, a row shorter than the
    header is padded with missing values and a row longer than the header
    is a parse error. Quoting is not modelled. *)

Inductive Cell : Type :=
| CNull
| CNum (q : Q)
| CStr (s : string).

Record DataFrame : Type := mkDF {
  df_columns : list string;
  df_rows : list (list Cell)
}.

(** [df.shape] *)
Definition shape (df : DataFrame) : Z * Z :=
  (Z.of_nat (length (df_rows df)), Z.of_nat (length (df_columns df))).

(** [str.split(sep)]: always at least one piece. *)
Fixpoint split_on (sep : ascii) (s : string) : list string :=
  match s with
  | EmptyString => [EmptyString]
  | String c rest =>
      if Ascii.eqb c sep then EmptyString :: split_on sep rest
      else match split_on sep rest with
           | piece :: pieces => String c piece :: pieces
           | [] => [String c EmptyString]
           end
  end.

Definition newline : ascii := ascii_of_nat 10.

(** The lines of a file that the tokenizer keeps. *)
Definition csv_lines (text : string) : list string :=
  List.filter (fun l => negb (String.eqb l "")) (split_on newline text).

Definition digit_of (c : ascii) : option Z :=
  let n := nat_of_ascii c in
  if ((48 <=? n)%nat && (n <=? 57)%nat)%bool then Some (Z.of_nat (n - 48))
  else None.

Fixpoint parse_digits (s : string) (acc : Z) : option Z :=
  match s with
  | EmptyString => Some acc
  | String c rest =>
      match digit_of c with
      | Some d => parse_digits rest (10 * acc + d)
      | None => None
      end
  end.

(** Decimal literals [digits] and [digits.digits]. *)
Definition parse_unsigned (s : string) : option Q :=
  match split_on "."%char s with
  | [i] =>
      if String.eqb i "" then None
      else match parse_digits i 0 with
           | Some z => Some (inject_Z z)
           | None => None
           end
  | [i; f] =>
      if (String.eqb i "" || String.eqb f "")%bool then None
      else match parse_digits i 0, parse_digits f 0 with
           | Some zi, Some zf =>
               let scale := Pos.pow 10 (Pos.of_nat (String.length f)) in
               Some (Qmake (zi * Zpos scale + zf) scale)
           | _, _ => None
           end
  | _ => None
  end.

Definition parse_number (s : string) : option Q :=
  match s with
  | String c rest =>
      if Ascii.eqb c "-"%char then
        match parse_unsigned rest with
        | Some q => Some (Qopp q)
        | None => None
        end
      else parse_unsigned s
  | EmptyString => None
  end.

(** An empty field is a missing value, a decimal literal a number, anything
    else text. *)
Definition parse_cell (s : string) : Cell :=
  if String.eqb s "" then CNull
  else match parse_number s with
       | Some q => CNum q
       | None => CStr s
       end.

Definition pad_row (width : nat) (row : list Cell) : list Cell :=
  row ++ repeat CNull (width - length row).

Definition parse_csv (text : string) : Result DataFrame :=
  match csv_lines text with
  | [] => Failed EmptyDataError
  | header :: lines =>
      let columns := split_on ","%char header in
      let rows := map (fun l => map parse_cell (split_on ","%char l)) lines in
      if forallb (fun r => (length r <=? length columns)%nat) rows
      then Success (mkDF columns (map (pad_row (length columns)) rows))
      else Failed ParserError
  end.

Definition read_csv (fs : gmap string Node) (datapath : string)
  : Result DataFrame :=
  match fs !! datapath with
  | None => Failed (FileNotFoundError datapath)
  | Some Dir => Failed (IsADirectoryError datapath)
  | Some (File text) => parse_csv text
  end.

(** ** [_compute_general_aggregats] *)

Definition _compute_general_aggregats (fs : gmap string Node)
    (ti : TaskInstance) (datapath : string) : Result TaskInstance :=
  df <- read_csv fs datapath ;;
  let nb_lines := fst (shape df) in
  let nb_cols := snd (shape df) in
  let ti := xcom_push ti "nb_lines" (PyInt nb_lines) in
  let ti := xcom_push ti "nb_cols" (PyInt nb_cols) in
  Success ti.

(** ** [S3Hook.download_file] and [_extract_from_s3]

    The hook is outside the repository; it is modelled for the flags the
    call passes ([preserve_file_name=True], [use_autogenerated_subdir=False]):
    the object is written under [local_path] with the base name of the key,
    and the call fails when the object is missing or the destination is a
    directory. *)

(** [key.rsplit("/", 1)[-1]] *)
Definition key_basename (key : string) : string :=
  List.last (split_on "/"%char key) "".

Definition download_file (s3 : gmap (string * string) string)
    (fs : gmap string Node) (key bucket_name local_path : string)
  : Result (string * gmap string Node) :=
  match s3 !! (bucket_name, key) with
  | None => Failed (ClientError bucket_name key)
  | Some body =>
      let file_path := os_path_join local_path (key_basename key) in
      match fs !! file_path with
      | Some Dir => Failed (IsADirectoryError file_path)
      | _ => Success (file_path,
                      <[file_path := File body]> (<[local_path := Dir]> fs))
      end
  end.

Definition _extract_from_s3 (s3 : gmap (string * string) string)
    (fs : gmap string Node) (key bucket_name local_path : string)
  : Result (string * gmap string Node) :=
  r <- download_file s3 fs key bucket_name local_path ;;
  let file_name := fst r in
  Success (file_name, snd r).

(** ** [pandasql.sqldf] on the query of [_compute_loan_aggregats]

    The query is a list of scalar subqueries
    [(SELECT AVG(c) FROM t WHERE w = 'lit') AS alias], evaluated the way
    SQLite does: one scan of the table that accumulates a sum and a count
    over the rows passing the [WHERE] test, a missing value never entering
    the average and text counting as 0, and [NULL] when nothing was
    counted. Averages are exact rationals. *)

Record AvgSubquery : Type := mkAvg {
  sq_avg : string;
  sq_from : string;
  sq_where_column : string;
  sq_where_literal : string;
  sq_alias : string
}.

Definition query : list AvgSubquery :=
  [ mkAvg "loan_amount" "df" "grade" "A" "mean_loan_a";
    mkAvg "loan_amount" "df" "grade" "B" "mean_loan_b";
    mkAvg "loan_amount" "df" "grade" "C" "mean_loan_c";
    mkAvg "loan_amount" "df" "grade" "D" "mean_loan_d" ].

Fixpoint assoc {A : Type} (key : string) (l : list (string * A)) : option A :=
  match l with
  | [] => None
  | (k, v) :: rest => if String.eqb k key then Some v else assoc key rest
  end.

Fixpoint column_index (name : string) (columns : list string) : option nat :=
  match columns with
  | [] => None
  | c :: cs =>
      if String.eqb c name then Some 0%nat
      else match column_index name cs with
           | Some i => Some (S i)
           | None => None
           end
  end.

Definition cell_at (row : list Cell) (i : nat) : Cell := nth i row CNull.

(** [column = 'literal'] holds on a text cell equal to the literal only. *)
Definition sql_text_eq (c : Cell) (literal : string) : bool :=
  match c with
  | CStr s => String.eqb s literal
  | _ => false
  end.

Definition avg_step (acc : Q * nat) (v : Cell) : Q * nat :=
  match v with
  | CNull => acc
  | CNum q => ((fst acc + q)%Q, S (snd acc))
  | CStr _ => ((fst acc + 0)%Q, S (snd acc))
  end.

Definition avg_final (acc : Q * nat) : Cell :=
  match snd acc with
  | O => CNull
  | S _ => CNum (fst acc / inject_Z (Z.of_nat (snd acc)))%Q
  end.

Definition scan_avg (rows : list (list Cell)) (ci wi : nat)
    (literal : string) : Q * nat :=
  fold_left
    (fun acc row =>
       if sql_text_eq (cell_at row wi) literal
       then avg_step acc (cell_at row ci)
       else acc)
    rows (0%Q, 0%nat).

Definition eval_avg (env : list (string * DataFrame)) (sq : AvgSubquery)
  : Result Cell :=
  match assoc (sq_from sq) env with
  | None => Failed (OperationalError (sq_from sq))
  | Some t =>
      match column_index (sq_avg sq) (df_columns t),
            column_index (sq_where_column sq) (df_columns t) with
      | Some ci, Some wi =>
          Success (avg_final (scan_avg (df_rows t) ci wi (sq_where_literal sq)))
      | None, _ => Failed (OperationalError (sq_avg sq))
      | _, None => Failed (OperationalError (sq_where_column sq))
      end
  end.

Fixpoint mapM {A B : Type} (f : A -> Result B) (l : list A)
  : Result (list B) :=
  match l with
  | [] => Success []
  | x :: rest =>
      y <- f x ;;
      ys <- mapM f rest ;;
      Success (y :: ys)
  end.

(** The result of the query: one row, one column per alias. *)
Definition sqldf (q : list AvgSubquery) (env : list (string * DataFrame))
  : Result DataFrame :=
  cells <- mapM (eval_avg env) q ;;
  Success (mkDF (map sq_alias q) [cells]).

(** [DataFrame.to_dict()]: column name to (row index to value). *)
Definition to_dict (df : DataFrame) : list (string * list (nat * Cell)) :=
  imap (fun j name =>
          (name, imap (fun i row => (i, cell_at row j)) (df_rows df)))
       (df_columns df).

Definition py_of_cell (c : Cell) : PyVal :=
  match c with
  | CNull => PyNone
  | CNum q => PyFloat q
  | CStr s => PyStr s
  end.

(** The loop [for k, v in output_dict.items(): ti.xcom_push(key=k,
    value=list(v.values())[0])]. *)
Fixpoint push_first_values (ti : TaskInstance)
    (items : list (string * list (nat * Cell))) : Result TaskInstance :=
  match items with
  | [] => Success ti
  | (k, v) :: rest =>
      match map snd v with
      | [] => Failed IndexError
      | first :: _ => push_first_values (xcom_push ti k (py_of_cell first)) rest
      end
  end.

(** ** [_compute_loan_aggregats] *)

Definition _compute_loan_aggregats (fs : gmap string Node)
    (ti : TaskInstance) (datapath : string) : Result TaskInstance :=
  df <- read_csv fs datapath ;;
  output <- sqldf query [("df", df)] ;;
  let output_dict := to_dict output in
  push_first_values ti output_dict.

(** ** The relational store and the two statements *)

Inductive SqlType : Type := numeric | timestamp.

Inductive SqlValue : Type :=
| VNull
| VNumeric (q : Q)
| VTimestamp (t : Z).

Record Table : Type := mkTable {
  tbl_columns : list (string * SqlType);
  tbl_rows : list (list SqlValue)
}.

(** A templated value of the insert: a Jinja pull from XCom or the
    writer's clock. *)
Inductive ValueTemplate : Type :=
| XComPull (key task_ids : string)
| CURRENT_TIMESTAMP.

Inductive SqlStmt : Type :=
| CreateTableIfNotExists (table : string) (columns : list (string * SqlType))
| InsertInto (table : string) (columns : list string)
    (values : list ValueTemplate).

Definition create_aggregats_table_sql : SqlStmt :=
  CreateTableIfNotExists "aggregats_loans_table"
    [ ("nb_lines", numeric);
      ("nb_cols", numeric);
      ("date_and_hour", timestamp);
      ("mean_loan_a", numeric);
      ("mean_loan_b", numeric);
      ("mean_loan_c", numeric);
      ("mean_loan_d", numeric) ].

Definition store_aggregats_sql : SqlStmt :=
  InsertInto "aggregats_loans_tabble"
    [ "nb_lines"; "nb_cols"; "date_and_hour";
      "mean_loan_a"; "mean_loan_b"; "mean_loan_c"; "mean_loan_d" ]
    [ XComPull "nb_lines" "compute_general_aggregats";
      XComPull "nb_cols" "compute_general_aggregats";
      CURRENT_TIMESTAMP;
      XComPull "mean_loan_a" "compute_loan_aggregats";
      XComPull "mean_loan_b" "compute_loan_aggregats";
      XComPull "mean_loan_c" "compute_loan_aggregats";
      XComPull "mean_loan_d" "compute_loan_aggregats" ].

(** The table a statement names. *)
Definition target_table (stmt : SqlStmt) : string :=
  match stmt with
  | CreateTableIfNotExists table _ => table
  | InsertInto table _ _ => table
  end.

(** What a rendered template value is to the SQL parser. *)
Inductive SqlExpr : Type :=
| ENumber (q : Q)
| EWord (w : string)
| ECurrentTimestamp.

(** Jinja renders the pulled value with [str]; a number renders as a
    numeric literal, anything else as a bare word. *)
Definition render (ti : TaskInstance) (v : ValueTemplate) : SqlExpr :=
  match v with
  | XComPull key task_ids =>
      match xcom_pull ti key task_ids with
      | PyInt z => ENumber (inject_Z z)
      | PyFloat q => ENumber q
      | PyNone => EWord "None"
      | PyBool true => EWord "True"
      | PyBool false => EWord "False"
      | PyStr s => EWord s
      end
  | CURRENT_TIMESTAMP => ECurrentTimestamp
  end.

Definition eval_expr (now : Z) (ty : SqlType) (e : SqlExpr)
  : Result SqlValue :=
  match e, ty with
  | ENumber q, numeric => Success (VNumeric q)
  | ECurrentTimestamp, timestamp => Success (VTimestamp now)
  | ENumber _, timestamp => Failed (OperationalError "datatype mismatch")
  | ECurrentTimestamp, numeric => Failed (OperationalError "datatype mismatch")
  | EWord w, _ => Failed (UndefinedColumn w)
  end.

Definition assign (now : Z) (t : Table) (ce : string * SqlExpr)
  : Result (string * SqlValue) :=
  match assoc (fst ce) (tbl_columns t) with
  | None => Failed (UndefinedColumn (fst ce))
  | Some ty => v <- eval_expr now ty (snd ce) ;; Success (fst ce, v)
  end.

Definition exec_sql (db : gmap string Table) (now : Z) (ti : TaskInstance)
    (stmt : SqlStmt) : Result (gmap string Table) :=
  match stmt with
  | CreateTableIfNotExists table columns =>
      match db !! table with
      | Some _ => Success db
      | None => Success (<[table := mkTable columns []]> db)
      end
  | InsertInto table columns values =>
      match db !! table with
      | None => Failed (UndefinedTable table)
      | Some t =>
          if (length columns =? length values)%nat then
            assigned <- mapM (assign now t)
                          (combine columns (map (render ti) values)) ;;
            let row := map (fun c => match assoc (fst c) assigned with
                                     | Some v => v
                                     | None => VNull
                                     end) (tbl_columns t) in
            Success (<[table := mkTable (tbl_columns t) (tbl_rows t ++ [row])]> db)
          else Failed (OperationalError "syntax error")
      end
  end.

(** ** The world of a run *)

Record World : Type := mkWorld {
  w_fs : gmap string Node;
  w_s3 : gmap (string * string) string;
  w_db : gmap string Table;
  w_xcom : gmap (string * string) PyVal;
  w_now : Z
}.

Definition with_fs (w : World) (fs : gmap string Node) : World :=
  mkWorld fs (w_s3 w) (w_db w) (w_xcom w) (w_now w).

Definition with_db (w : World) (db : gmap string Table) : World :=
  mkWorld (w_fs w) (w_s3 w) db (w_xcom w) (w_now w).

Definition with_xcom (w : World) (ti : TaskInstance) : World :=
  mkWorld (w_fs w) (w_s3 w) (w_db w) (ti_xcom ti) (w_now w).

(** ** Operators, tasks and wiring *)

Inductive Callable : Type :=
| py_is_data_local
| py_extract_from_s3
| py_branch
| py_compute_general_aggregats
| py_compute_loan_aggregats.

Inductive TriggerRule : Type :=
| ALL_SUCCESS
| NONE_FAILED_MIN_ONE_SUCCESS.

Inductive Operator : Type :=
| PythonOperator (python_callable : Callable)
    (op_kwargs : list (string * string))
| BranchPythonOperator (python_callable : Callable)
| BashOperator (bash_command : string)
| DummyOperator
| PostgresOperator (postgres_conn_id : string) (sql : SqlStmt).

Record Task : Type := mkTask {
  task_id : string;
  operator : Operator;
  trigger_rule : TriggerRule
}.

Definition is_data_local : Task :=
  mkTask "is_data_local"
    (PythonOperator py_is_data_local [("datapath", DEST_PATH_FILE)])
    ALL_SUCCESS.

Definition branch : Task :=
  mkTask "branch" (BranchPythonOperator py_branch) ALL_SUCCESS.

Definition log_data_is_local : Task :=
  mkTask "log_data_is_local"
    (BashOperator "echo data is present locally") ALL_SUCCESS.

Definition log_data_is_remote : Task :=
  mkTask "log_data_is_remote" DummyOperator ALL_SUCCESS.

Definition extract_data_from_s3 : Task :=
  mkTask "extract_data_from_s3"
    (PythonOperator py_extract_from_s3
       [ ("key", SOURCE_S3_KEY);
         ("bucket_name", SOURCE_S3_BUCKET);
         ("local_path", DEST_PATH_FILE) ])
    ALL_SUCCESS.

Definition compute_general_aggregats : Task :=
  mkTask "compute_general_aggregats"
    (PythonOperator py_compute_general_aggregats
       [("datapath", os_path_join DEST_PATH_FILE "loan_data_small.csv")])
    NONE_FAILED_MIN_ONE_SUCCESS.

Definition compute_loan_aggregats : Task :=
  mkTask "compute_loan_aggregats"
    (PythonOperator py_compute_loan_aggregats
       [("datapath", os_path_join DEST_PATH_FILE "loan_data_small.csv")])
    ALL_SUCCESS.

Definition create_aggregats_table_if_needed : Task :=
  mkTask "create_table"
    (PostgresOperator "destination" create_aggregats_table_sql) ALL_SUCCESS.

Definition store_aggregats : Task :=
  mkTask "store_aggregats"
    (PostgresOperator "destination" store_aggregats_sql) ALL_SUCCESS.

(** [ups >> downs]: an edge from every task on the left to every task on
    the right. *)
Definition rshift (ups downs : list Task) : list (string * string) :=
  flat_map (fun u => map (fun d => (task_id u, task_id d)) downs) ups.

Definition dag_edges : list (string * string) :=
  rshift [is_data_local] [branch]
  ++ rshift [branch] [log_data_is_local; log_data_is_remote]
  ++ rshift [log_data_is_remote] [extract_data_from_s3]
  ++ rshift [log_data_is_local; extract_data_from_s3]
            [compute_general_aggregats]
  ++ rshift [compute_general_aggregats] [compute_loan_aggregats]
  ++ rshift [compute_loan_aggregats] [create_aggregats_table_if_needed]
  ++ rshift [create_aggregats_table_if_needed] [store_aggregats].

(** The tasks of the DAG, in an order compatible with the edges. *)
Definition dag_tasks : list Task :=
  [ is_data_local; branch; log_data_is_local; log_data_is_remote;
    extract_data_from_s3; compute_general_aggregats;
    compute_loan_aggregats; create_aggregats_table_if_needed;
    store_aggregats ].

Definition upstream_ids (tid : string) : list string :=
  map fst (List.filter (fun e => String.eqb (snd e) tid) dag_edges).

Definition downstream_ids (tid : string) : list string :=
  map snd (List.filter (fun e => String.eqb (fst e) tid) dag_edges).

(** ** Running a task *)

Definition kwarg (op_kwargs : list (string * string)) (name : string)
  : Result string :=
  match assoc name op_kwargs with
  | Some v => Success v
  | None => Failed (TypeError name)
  end.

(** The call of a python callable by its operator: [ti] is the instance of
    the running task over the XCom store of the run. The value the callable
    returns is handed back to the operator; the operator's own push of it
    under [return_value] is left out, since no task pulls it. *)
Definition call (c : Callable) (op_kwargs : list (string * string))
    (tid : string) (w : World) : Result (World * PyVal) :=
  let ti := mkTI tid (w_xcom w) in
  match c with
  | py_is_data_local =>
      datapath <- kwarg op_kwargs "datapath" ;;
      ti' <- _is_data_local (w_fs w) ti datapath ;;
      Success (with_xcom w ti', PyNone)
  | py_extract_from_s3 =>
      key <- kwarg op_kwargs "key" ;;
      bucket_name <- kwarg op_kwargs "bucket_name" ;;
      local_path <- kwarg op_kwargs "local_path" ;;
      r <- _extract_from_s3 (w_s3 w) (w_fs w) key bucket_name local_path ;;
      Success (with_fs w (snd r), PyStr (fst r))
  | py_branch =>
      r <- _branch ti ;;
      Success (w, PyStr r)
  | py_compute_general_aggregats =>
      datapath <- kwarg op_kwargs "datapath" ;;
      ti' <- _compute_general_aggregats (w_fs w) ti datapath ;;
      Success (with_xcom w ti', PyNone)
  | py_compute_loan_aggregats =>
      datapath <- kwarg op_kwargs "datapath" ;;
      ti' <- _compute_loan_aggregats (w_fs w) ti datapath ;;
      Success (with_xcom w ti', PyNone)
  end.

Definition execute (t : Task) (w : World) : Result (World * PyVal) :=
  match operator t with
  | PythonOperator c op_kwargs => call c op_kwargs (task_id t) w
  | BranchPythonOperator c => call c [] (task_id t) w
  | BashOperator _ => Success (w, PyNone)
  | DummyOperator => Success (w, PyNone)
  | PostgresOperator _ stmt =>
      db <- exec_sql (w_db w) (w_now w) (mkTI (task_id t) (w_xcom w)) stmt ;;
      Success (with_db w db, PyNone)
  end.

Inductive TaskState : Type :=
| success
| failed
| skipped
| upstream_failed.

Record DagRun : Type := mkRun {
  run_world : World;
  run_states : list (string * TaskState)
}.

Definition state_of (dr : DagRun) (tid : string) : option TaskState :=
  assoc tid (run_states dr).

Definition record_state (dr : DagRun) (tid : string) (s : TaskState)
  : DagRun :=
  mkRun (run_world dr) (run_states dr ++ [(tid, s)]).

Definition is_state (s : TaskState) (o : option TaskState) : bool :=
  match o, s with
  | Some success, success => true
  | Some failed, failed => true
  | Some skipped, skipped => true
  | Some upstream_failed, upstream_failed => true
  | _, _ => false
  end.

Inductive Verdict : Type :=
| Run
| Mark (s : TaskState).

(** The scheduler's trigger-rule check on the states of the upstream
    tasks. *)
Definition evaluate_trigger_rule (rule : TriggerRule)
    (ups : list (option TaskState)) : Verdict :=
  if existsb (fun o => is_state failed o || is_state upstream_failed o)%bool ups
  then Mark upstream_failed
  else match rule with
       | ALL_SUCCESS =>
           if existsb (is_state skipped) ups then Mark skipped else Run
       | NONE_FAILED_MIN_ONE_SUCCESS =>
           match ups with
           | [] => Run
           | _ => if existsb (is_state success) ups then Run else Mark skipped
           end
       end.

(** After a branch operator returned [chosen]: its direct downstream tasks
    other than the chosen one are skipped. *)
Definition skip_all_except (dr : DagRun) (tid chosen : string) : DagRun :=
  fold_left (fun dr d => record_state dr d skipped)
    (List.filter (fun d => negb (String.eqb d chosen)) (downstream_ids tid))
    dr.

Definition run_task (dr : DagRun) (t : Task) : DagRun :=
  match state_of dr (task_id t) with
  | Some _ => dr
  | None =>
      match evaluate_trigger_rule (trigger_rule t)
              (map (state_of dr) (upstream_ids (task_id t))) with
      | Mark s => record_state dr (task_id t) s
      | Run =>
          match execute t (run_world dr) with
          | Failed _ => record_state dr (task_id t) failed
          | Success (w, ret) =>
              let dr' := record_state (mkRun w (run_states dr))
                           (task_id t) success in
              match operator t, ret with
              | BranchPythonOperator _, PyStr chosen =>
                  skip_all_except dr' (task_id t) chosen
              | _, _ => dr'
              end
          end
      end
  end.

Definition run_dag (w : World) : DagRun :=
  fold_left run_task dag_tasks (mkRun w []).

Inductive DagRunState : Type :=
| run_success
| run_failed.

(** A run fails when a task without downstream tasks failed or was not
    reached because of a failure. *)
Definition dagrun_state (dr : DagRun) : DagRunState :=
  let leaves :=
    List.filter (fun t => match downstream_ids (task_id t) with
                          | [] => true
                          | _ => false
                          end) dag_tasks in
  if existsb (fun t => is_state failed (state_of dr (task_id t))
                       || is_state upstream_failed (state_of dr (task_id t)))%bool
       leaves
  then run_failed else run_success.

(** ** Notions the statements below use *)

(** The path the two aggregators are given. *)
Definition dataset_path : string :=
  os_path_join DEST_PATH_FILE "loan_data_small.csv".

(** The [datapath] argument a python task is called with. *)
Definition datapath_of (t : Task) : option string :=
  match operator t with
  | PythonOperator _ op_kwargs => assoc "datapath" op_kwargs
  | _ => None
  end.

(** The flag a run hands from the presence checker to the branch. *)
Definition presence_flag (w : World) : bool :=
  os_path_exists (w_fs w) DEST_PATH_FILE.




(** The cell of a row under a named column. *)
Definition column_of (df : DataFrame) (name : string) (row : list Cell)
  : Cell :=
  match column_index name (df_columns df) with
  | Some i => cell_at row i
  | None => CNull
  end.

Definition has_grade (df : DataFrame) (g : string) (row : list Cell) : bool :=
  match column_of df "grade" row with
  | CStr s => String.eqb s g
  | _ => false
  end.

Definition rows_with_grade (df : DataFrame) (g : string)
  : list (list Cell) :=
  List.filter (has_grade df g) (df_rows df).






(** The tracked grades and the key each mean is pushed under. *)
Definition grade_outputs : list (string * string) :=
  [ ("A", "mean_loan_a"); ("B", "mean_loan_b");
    ("C", "mean_loan_c"); ("D", "mean_loan_d") ].

Definition has_tracked_grade (df : DataFrame) (row : list Cell) : bool :=
  existsb (fun go => has_grade df (fst go) row) grade_outputs.

(** The dataset without the rows whose grade is outside the tracked ones. *)
Definition tracked_rows (df : DataFrame) : list (list Cell) :=
  List.filter (has_tracked_grade df) (df_rows df).

(** The summary table and its declared schema. *)
Definition summary_table : string := "aggregats_loans_table".

Definition summary_schema : list (string * SqlType) :=
  [ ("nb_lines", numeric); ("nb_cols", numeric);
    ("date_and_hour", timestamp);
    ("mean_loan_a", numeric); ("mean_loan_b", numeric);
    ("mean_loan_c", numeric); ("mean_loan_d", numeric) ].

(** The ensure-schema task run [n] times in a row. *)
Fixpoint ensure_schema_times (n : nat) (w : World) : Result World :=
  match n with
  | O => Success w
  | S k =>
      r <- execute create_aggregats_table_if_needed w ;;
      ensure_schema_times k (fst r)
  end.

(** ** Sample worlds *)

Definition sample_csv : string :=
  "id,grade,loan_amount" ++ String newline
  ("1,A,1000" ++ String newline
  ("2,B,2000.5" ++ String newline
  ("3,A,500" ++ String newline
  ("4,E,7" ++ String newline "")))).

Definition sample_csv_more : string :=
  "id,grade,loan_amount" ++ String newline
  ("9,F,123" ++ String newline
  ("1,A,1000" ++ String newline
  ("2,B,2000.5" ++ String newline
  ("8,,55" ++ String newline
  ("3,A,500" ++ String newline ""))))).

Definition empty_world : World := mkWorld ∅ ∅ ∅ ∅ 0.

(** The destination directory exists, the dataset file does not. *)
Definition directory_only_world : World :=
  mkWorld {[ DEST_PATH_FILE := Dir ]} ∅ ∅ ∅ 0.

Definition sample_fs : gmap string Node :=
  {[ dataset_path := File sample_csv ]}.

Definition sample_fs_more : gmap string Node :=
  {[ dataset_path := File sample_csv_more ]}.

Definition sample_ti : TaskInstance := mkTI "compute_loan_aggregats" ∅.

Definition sample_df : DataFrame :=
  match read_csv sample_fs dataset_path with
  | Success df => df
  | Failed _ => mkDF [] []
  end.

Definition sample_df_more : DataFrame :=
  match read_csv sample_fs_more dataset_path with
  | Success df => df
  | Failed _ => mkDF [] []
  end.

(** ** The run after its first tasks *)

(** The world once the presence checker has pushed its flag. *)
Definition after_presence_check (w : World) : World :=
  with_xcom w (xcom_push (mkTI "is_data_local" (w_xcom w)) "is_local"
                 (PyBool (presence_flag w))).

(** The tasks from the fetch on. *)
Definition later_tasks : list Task :=
  [ extract_data_from_s3; compute_general_aggregats; compute_loan_aggregats;
    create_aggregats_table_if_needed; store_aggregats ].

(** ** Notions for the further properties *)

(** The table the insert statement names. *)
Definition insert_target : string := target_table store_aggregats_sql.

(** The rows of a table of the store, none when the table is absent. *)
Definition table_rows (db : gmap string Table) (name : string)
  : list (list SqlValue) :=
  match db !! name with
  | Some t => tbl_rows t
  | None => []
  end.

(** The number a pulled value renders as, when it renders as one. *)
Definition number_of (v : PyVal) : option Q :=
  match v with
  | PyInt z => Some (inject_Z z)
  | PyFloat q => Some q
  | _ => None
  end.

(** The XCom entries the insert statement pulls, in the order of its
    columns without the timestamp. *)
Definition pulled_entries : list (string * string) :=
  [ ("nb_lines", "compute_general_aggregats");
    ("nb_cols", "compute_general_aggregats");
    ("mean_loan_a", "compute_loan_aggregats");
    ("mean_loan_b", "compute_loan_aggregats");
    ("mean_loan_c", "compute_loan_aggregats");
    ("mean_loan_d", "compute_loan_aggregats") ].

(** The keys each aggregator pushes. *)
Definition general_keys : list string := ["nb_lines"; "nb_cols"].

Definition loan_keys : list string :=
  ["mean_loan_a"; "mean_loan_b"; "mean_loan_c"; "mean_loan_d"].

(** The states a task that was reached and executed ends in. *)
Definition executed (o : option TaskState) : bool :=
  (is_state success o || is_state failed o)%bool.

Definition sample_s3 : gmap (string * string) string :=
  {[ (SOURCE_S3_BUCKET, SOURCE_S3_KEY) := sample_csv ]}.

(** A store that holds a table under the name the insert uses. *)
Definition sample_store : gmap string Table :=
  {[ insert_target := mkTable summary_schema [] ]}.

Definition sample_pushed : TaskInstance :=
  mkTI "store_aggregats"
    (list_to_map
       [ (("compute_general_aggregats", "nb_lines"), PyInt 4);
         (("compute_general_aggregats", "nb_cols"), PyInt 3);
         (("compute_loan_aggregats", "mean_loan_a"), PyFloat 750);
         (("compute_loan_aggregats", "mean_loan_b"), PyFloat 2000.5);
         (("compute_loan_aggregats", "mean_loan_c"), PyFloat 10);
         (("compute_loan_aggregats", "mean_loan_d"), PyFloat 20) ]).






(** Nothing local, the dataset in the object store. *)
Definition remote_world : World := mkWorld ∅ sample_s3 ∅ ∅ 0.


(** A task instance that carries the presence flag. *)
Definition flagged_ti (tid : string) : TaskInstance :=
  mkTI tid {[ ("is_data_local", "is_local") := PyBool false ]}.

Definition sample_general_result : TaskInstance :=
  match _compute_general_aggregats sample_fs
          (flagged_ti "compute_general_aggregats") dataset_path with
  | Success ti' => ti'
  | Failed _ => flagged_ti "compute_general_aggregats"
  end.

Definition sample_loan_result : TaskInstance :=
  match _compute_loan_aggregats sample_fs
          (flagged_ti "compute_loan_aggregats") dataset_path with
  | Success ti' => ti'
  | Failed _ => flagged_ti "compute_loan_aggregats"
  end.

(** * Properties *)

(** ** XCom lemmas *)

Lemma xcom_pull_push_eq ti key value :
  xcom_pull (xcom_push ti key value) key (ti_task_id ti) = value.
Proof.
  unfold xcom_pull, xcom_push; cbn [ti_xcom ti_task_id].
  by rewrite lookup_insert_eq.
Qed.

Lemma xcom_pull_push_ne ti key value key' tid :
  (ti_task_id ti, key) <> (tid, key') ->
  xcom_pull (xcom_push ti key value) key' tid = xcom_pull ti key' tid.
Proof.
  intros Hne. unfold xcom_pull, xcom_push; cbn [ti_xcom ti_task_id].
  by rewrite lookup_insert_ne.
Qed.



Lemma xcom_push_task_id ti key value :
  ti_task_id (xcom_push ti key value) = ti_task_id ti.
Proof. reflexivity. Qed.

(** ** The table names of the two statements *)

(** C1 (the code departs from it): the insert statement names
    [aggregats_loans_tabble] while the ensure-schema statement creates
    [aggregats_loans_table]; the two names differ, and on a store that holds
    only the table just created the insert fails on an undefined relation,
    leaving the created table without a row. *)
Theorem insert_target_differs_from_created_table :
  target_table create_aggregats_table_sql = "aggregats_loans_table" /\
  target_table store_aggregats_sql = "aggregats_loans_tabble" /\
  target_table store_aggregats_sql <> target_table create_aggregats_table_sql /\
  exists db,
    exec_sql ∅ 0 sample_ti create_aggregats_table_sql = Success db /\
    db !! summary_table = Some (mkTable summary_schema []) /\
    exec_sql db 0 sample_ti store_aggregats_sql
      = Failed (UndefinedTable "aggregats_loans_tabble").
Proof.
  split; [reflexivity|]. split; [reflexivity|]. split; [discriminate|].
  eexists. split; [reflexivity|]. split; reflexivity.
Qed.

(** ** The branch selector *)

Lemma branch_children :
  downstream_ids "branch" = ["log_data_is_local"; "log_data_is_remote"].
Proof. reflexivity. Qed.

Lemma branch_of_flag ti (flag : bool) :
  xcom_pull ti "is_local" "is_data_local" = PyBool flag ->
  _branch ti
  = Success (if flag then "log_data_is_local" else "log_data_is_remote").
Proof.
  intros Hpull. unfold _branch. rewrite Hpull. by destruct flag.
Qed.

Lemma branch_not_true ti :
  xcom_pull ti "is_local" "is_data_local" <> PyBool true ->
  _branch ti = Success "log_data_is_remote".
Proof.
  intros Hne. unfold _branch.
  destruct (xcom_pull ti "is_local" "is_data_local") as [| [|] | | |];
    try reflexivity.
  by destruct Hne.
Qed.

(** C3 (as amended): when the pulled presence flag is anything but the
    boolean [True] -- in particular when the pull yields no value -- the
    branch selector raises nothing and selects the remote branch. *)
Theorem branch_without_true_flag_selects_remote ti :
  xcom_pull ti "is_local" "is_data_local" <> PyBool true ->
  _branch ti = Success "log_data_is_remote" /\
  List.filter (String.eqb "log_data_is_remote") (downstream_ids "branch")
  = ["log_data_is_remote"].
Proof.
  intros Hne. split; [by apply branch_not_true | reflexivity].
Qed.

Lemma branch_without_true_flag_selects_remote_witness :
  xcom_pull (mkTI "branch" ∅) "is_local" "is_data_local" <> PyBool true /\
  _branch (mkTI "branch" ∅) = Success "log_data_is_remote".
Proof.
  assert (H : xcom_pull (mkTI "branch" ∅) "is_local" "is_data_local"
              <> PyBool true) by (vm_compute; discriminate).
  split; [exact H|].
  exact (proj1 (branch_without_true_flag_selects_remote (mkTI "branch" ∅) H)).
Defined.

(** C3 (as stated, refuted): with no presence flag in XCom the pull yields
    [None], and the branch selector does not fail: it returns the remote
    branch. *)
Lemma branch_missing_flag_is_not_fatal :
  xcom_pull (mkTI "branch" ∅) "is_local" "is_data_local" = PyNone /\
  _branch (mkTI "branch" ∅) = Success "log_data_is_remote" /\
  ~ (exists e, _branch (mkTI "branch" ∅) = Failed e).
Proof.
  split; [reflexivity|]. split; [reflexivity|].
  intros [e He]. vm_compute in He. discriminate.
Qed.

(** ** The presence checker *)

(** C4 (the code departs from it): the presence checker is called on the
    destination directory, not on the dataset file; in a world where the
    directory exists and the file does not, the flag it pushes is [True]. *)
Theorem presence_checker_tests_directory :
  datapath_of is_data_local = Some DEST_PATH_FILE /\
  os_path_exists (w_fs directory_only_world) dataset_path = false /\
  exists w',
    execute is_data_local directory_only_world = Success (w', PyNone) /\
    xcom_pull (mkTI "branch" (w_xcom w')) "is_local" "is_data_local"
    = PyBool true.
Proof.
  split; [reflexivity|]. split; [reflexivity|].
  eexists. split; reflexivity.
Qed.

(** ** The dataset path *)

(** C10: both aggregators are called on the same constant path, the
    destination directory joined with [loan_data_small.csv], whatever the
    world of the run (hence whichever branch executed); that path properly
    extends the path the presence checker tests and differs from it. *)
Theorem aggregators_read_same_dataset_path :
  datapath_of compute_general_aggregats = Some dataset_path /\
  datapath_of compute_loan_aggregats = Some dataset_path /\
  dataset_path = "/opt/airflow/data/raw-data/loan_data_small.csv" /\
  (forall w,
     execute compute_general_aggregats w
     = (ti' <- _compute_general_aggregats (w_fs w)
                 (mkTI "compute_general_aggregats" (w_xcom w)) dataset_path ;;
        Success (with_xcom w ti', PyNone))) /\
  (forall w,
     execute compute_loan_aggregats w
     = (ti' <- _compute_loan_aggregats (w_fs w)
                 (mkTI "compute_loan_aggregats" (w_xcom w)) dataset_path ;;
        Success (with_xcom w ti', PyNone))) /\
  datapath_of is_data_local = Some DEST_PATH_FILE /\
  String.prefix DEST_PATH_FILE dataset_path = true /\
  (String.length DEST_PATH_FILE < String.length dataset_path)%nat /\
  dataset_path <> DEST_PATH_FILE.
Proof.
  repeat split; try reflexivity.
  - vm_compute. lia.
  - discriminate.
Qed.
(** ** Running the DAG *)

Lemma run_is_data_local w :
  run_task (mkRun w []) is_data_local
  = mkRun (after_presence_check w) [("is_data_local", success)].
Proof. reflexivity. Qed.

Lemma pull_flag w tid :
  xcom_pull (mkTI tid (w_xcom (after_presence_check w))) "is_local" "is_data_local" = PyBool (presence_flag w).
Proof.
  unfold after_presence_check, with_xcom; cbn [w_xcom].
  apply (xcom_pull_push_eq (mkTI "is_data_local" (w_xcom w))).
Qed.


Lemma execute_branch w :
  execute branch (after_presence_check w)
  = Success (after_presence_check w,
             PyStr (if presence_flag w then "log_data_is_local" else "log_data_is_remote")).
Proof.
  unfold execute, call; cbn [operator branch task_id].
  rewrite (branch_of_flag _ (presence_flag w)); [reflexivity|].
  apply pull_flag.
Qed.

Lemma run_branch w :
  run_task (mkRun (after_presence_check w) [("is_data_local", success)]) branch
  = mkRun (after_presence_check w)
      (if presence_flag w
       then [("is_data_local", success); ("branch", success); ("log_data_is_remote", skipped)]
       else [("is_data_local", success); ("branch", success); ("log_data_is_local", skipped)]).
Proof.
  unfold run_task. cbn -[execute after_presence_check].
  rewrite execute_branch.
  destruct (presence_flag w); reflexivity.
Qed.


Lemma assoc_app_Some {A} tid (l l' : list (string * A)) s :
  assoc tid l = Some s -> assoc tid (l ++ l') = Some s.
Proof.
  induction l as [|[k v] l IH]; cbn; [discriminate|].
  destruct (String.eqb k tid); auto.
Qed.

Lemma record_state_keeps dr tid' s' tid s :
  state_of dr tid = Some s -> state_of (record_state dr tid' s') tid = Some s.
Proof. unfold state_of, record_state; cbn. apply assoc_app_Some. Qed.

Lemma skip_all_except_keeps dr t chosen tid s :
  state_of dr tid = Some s -> state_of (skip_all_except dr t chosen) tid = Some s.
Proof.
  unfold skip_all_except.
  generalize (List.filter (fun d => negb (String.eqb d chosen)) (downstream_ids t)).
  intros l; revert dr; induction l as [|d l IH]; intros dr H; cbn; [done|].
  apply IH. by apply record_state_keeps.
Qed.

Lemma run_task_keeps dr t tid s :
  state_of dr tid = Some s -> state_of (run_task dr t) tid = Some s.
Proof.
  intros H. unfold run_task.
  destruct (state_of dr (task_id t)); [done|].
  destruct (evaluate_trigger_rule _ _); [|by apply record_state_keeps].
  destruct (execute t (run_world dr)) as [[w' ret]|e];
    [|by apply record_state_keeps].
  assert (H' : state_of (record_state (mkRun w' (run_states dr)) (task_id t) success) tid = Some s)
    by (by apply record_state_keeps).
  destruct (operator t); try done.
  destruct ret; try done.
  by apply skip_all_except_keeps.
Qed.

Lemma run_tasks_keep ts : forall dr tid s,
  state_of dr tid = Some s -> state_of (fold_left run_task ts dr) tid = Some s.
Proof.
  induction ts as [|t ts IH]; intros dr tid s H; cbn [fold_left]; [done|].
  apply IH. by apply run_task_keeps.
Qed.

Lemma fold_step (ts : list Task) t dr dr' :
  run_task dr t = dr' ->
  fold_left run_task (t :: ts) dr = fold_left run_task ts dr'.
Proof. by intros <-. Qed.

Ltac run_step tac :=
  etransitivity;
  [ apply fold_step; unfold run_task; cbn -[execute after_presence_check]; tac; reflexivity | ].

Lemma run_prefix w :
  fold_left run_task [is_data_local; branch; log_data_is_local; log_data_is_remote] (mkRun w [])
  = mkRun (after_presence_check w)
      (if presence_flag w
       then [("is_data_local", success); ("branch", success);
             ("log_data_is_remote", skipped); ("log_data_is_local", success)]
       else [("is_data_local", success); ("branch", success);
             ("log_data_is_local", skipped); ("log_data_is_remote", success)]).
Proof.
  rewrite (fold_step _ _ _ _ (run_is_data_local w)).
  rewrite (fold_step _ _ _ _ (run_branch w)).
  destruct (presence_flag w).
  - run_step idtac. run_step idtac. reflexivity.
  - run_step idtac. run_step idtac. reflexivity.
Qed.

Lemma run_dag_split w :
  run_dag w
  = fold_left run_task later_tasks
      (mkRun (after_presence_check w)
         (if presence_flag w
          then [("is_data_local", success); ("branch", success);
                ("log_data_is_remote", skipped); ("log_data_is_local", success)]
          else [("is_data_local", success); ("branch", success);
                ("log_data_is_local", skipped); ("log_data_is_remote", success)])).
Proof.
  rewrite <- run_prefix. unfold run_dag.
  change dag_tasks with (app [is_data_local; branch; log_data_is_local; log_data_is_remote] later_tasks).
  apply fold_left_app.
Qed.

(** C2: for either value of the presence flag the branch selector returns
    exactly one of the two tasks downstream of it -- the local branch on
    [True], the remote branch on [False] -- the other one is the only task
    skipped, and in a run the chosen branch task succeeds while the other is
    skipped. *)
Theorem branch_selects_exactly_one_branch (flag : bool) ti w :
  xcom_pull ti "is_local" "is_data_local" = PyBool flag ->
  presence_flag w = flag ->
  let chosen := if flag then "log_data_is_local" else "log_data_is_remote" in
  let other := if flag then "log_data_is_remote" else "log_data_is_local" in
  _branch ti = Success chosen /\
  List.filter (String.eqb chosen) (downstream_ids "branch") = [chosen] /\
  List.filter (fun d => negb (String.eqb d chosen)) (downstream_ids "branch")
  = [other] /\
  state_of (run_dag w) chosen = Some success /\
  state_of (run_dag w) other = Some skipped.
Proof.
  intros Hpull Hflag chosen other. subst chosen other.
  split; [by apply branch_of_flag|].
  rewrite run_dag_split, Hflag.
  destruct flag; (split; [reflexivity|]); (split; [reflexivity|]);
    split; by apply run_tasks_keep.
Qed.


Lemma extract_state_local w :
  presence_flag w = true ->
  state_of (run_dag w) "extract_data_from_s3" = Some skipped.
Proof.
  intros Hflag. rewrite run_dag_split, Hflag.
  unfold later_tasks; cbn [fold_left].
  do 4 apply run_task_keeps. reflexivity.
Qed.

Lemma extract_state_remote w :
  presence_flag w = false ->
  state_of (run_dag w) "extract_data_from_s3"
  = Some (match execute extract_data_from_s3 (after_presence_check w) with
          | Success _ => success
          | Failed _ => failed
          end).
Proof.
  intros Hflag. rewrite run_dag_split, Hflag.
  unfold later_tasks; cbn [fold_left].
  do 4 apply run_task_keeps.
  unfold run_task; cbn -[execute after_presence_check].
  destruct (execute extract_data_from_s3 (after_presence_check w)) as [[w' ret]|e];
    reflexivity.
Qed.

Lemma run_dag_fetch_failed w e :
  presence_flag w = false ->
  execute extract_data_from_s3 (after_presence_check w) = Failed e ->
  run_dag w
  = mkRun (after_presence_check w)
      [ ("is_data_local", success); ("branch", success);
        ("log_data_is_local", skipped); ("log_data_is_remote", success);
        ("extract_data_from_s3", failed);
        ("compute_general_aggregats", upstream_failed);
        ("compute_loan_aggregats", upstream_failed);
        ("create_table", upstream_failed);
        ("store_aggregats", upstream_failed) ].
Proof.
  intros Hflag He. rewrite run_dag_split, Hflag. unfold later_tasks.
  etransitivity.
  { apply fold_step. unfold run_task; cbn -[execute after_presence_check].
    rewrite He. reflexivity. }
  reflexivity.
Qed.

(** C9: in a run where the dataset file is absent and the fetch task fails,
    the two aggregators, the ensure-schema task and the insert are never
    executed (they end [upstream_failed]), the relational store and the
    file system are left as they were, the aggregators push nothing to
    XCom, and the run ends failed. *)
Theorem fetch_failure_fails_run_before_aggregation w :
  os_path_exists (w_fs w) dataset_path = false ->
  state_of (run_dag w) "extract_data_from_s3" = Some failed ->
  state_of (run_dag w) "compute_general_aggregats" = Some upstream_failed /\
  state_of (run_dag w) "compute_loan_aggregats" = Some upstream_failed /\
  state_of (run_dag w) "create_table" = Some upstream_failed /\
  state_of (run_dag w) "store_aggregats" = Some upstream_failed /\
  w_db (run_world (run_dag w)) = w_db w /\
  w_fs (run_world (run_dag w)) = w_fs w /\
  (forall key,
     w_xcom (run_world (run_dag w)) !! ("compute_general_aggregats", key)
     = w_xcom w !! ("compute_general_aggregats", key)) /\
  (forall key,
     w_xcom (run_world (run_dag w)) !! ("compute_loan_aggregats", key)
     = w_xcom w !! ("compute_loan_aggregats", key)) /\
  dagrun_state (run_dag w) = run_failed.
Proof.
  intros _ Hfailed.
  destruct (presence_flag w) eqn:Hflag.
  - rewrite (extract_state_local w Hflag) in Hfailed. discriminate.
  - rewrite (extract_state_remote w Hflag) in Hfailed.
    destruct (execute extract_data_from_s3 (after_presence_check w)) as [r|e] eqn:He;
      [discriminate|].
    rewrite (run_dag_fetch_failed w e Hflag He).
    repeat split; try reflexivity;
      intros key; unfold after_presence_check, with_xcom, xcom_push;
      cbn [run_world w_xcom ti_xcom ti_task_id];
      by rewrite lookup_insert_ne.
Qed.

(** ** The ensure-schema step *)

Lemma ensure_schema_present w t :
  w_db w !! summary_table = Some t ->
  execute create_aggregats_table_if_needed w = Success (w, PyNone).
Proof.
  intros H. unfold execute; cbn [operator create_aggregats_table_if_needed].
  unfold create_aggregats_table_sql, exec_sql.
  change "aggregats_loans_table" with summary_table. rewrite H.
  by destruct w.
Qed.

Lemma ensure_schema_times_present n w t :
  w_db w !! summary_table = Some t ->
  ensure_schema_times n w = Success w.
Proof.
  intros H. induction n as [|n IH]; cbn [ensure_schema_times]; [done|].
  by rewrite (ensure_schema_present w t H).
Qed.

Lemma ensure_schema_absent w :
  w_db w !! summary_table = None ->
  execute create_aggregats_table_if_needed w
  = Success (with_db w (<[summary_table := mkTable summary_schema []]> (w_db w)),
             PyNone).
Proof.
  intros H. unfold execute; cbn [operator create_aggregats_table_if_needed].
  unfold create_aggregats_table_sql, exec_sql.
  change "aggregats_loans_table" with summary_table. by rewrite H.
Qed.

(** C8: the ensure-schema task never fails and is idempotent: run once or
    any number of times in a row it yields the same store, in which the
    summary table exists once, next to the tables that were there; when the
    table was absent it is created empty with the declared seven columns,
    when it already existed the world, the table and its rows are left as
    they were, and so the table has the declared schema unless a table of
    that name with another schema was there before. *)
Theorem ensure_schema_idempotent (w : World) (n : nat) :
  (1 <= n)%nat ->
  exists w',
    execute create_aggregats_table_if_needed w = Success (w', PyNone) /\
    ensure_schema_times n w = Success w' /\
    execute create_aggregats_table_if_needed w' = Success (w', PyNone) /\
    is_Some (w_db w' !! summary_table) /\
    dom (w_db w') = {[summary_table]} ∪ dom (w_db w) /\
    (forall name, name <> summary_table -> w_db w' !! name = w_db w !! name) /\
    (forall t, w_db w !! summary_table = Some t -> w' = w) /\
    (w_db w !! summary_table = None ->
     w_db w' !! summary_table = Some (mkTable summary_schema [])) /\
    ((forall t, w_db w !! summary_table = Some t ->
        tbl_columns t = summary_schema) ->
     exists t', w_db w' !! summary_table = Some t' /\
                tbl_columns t' = summary_schema) /\
    length summary_schema = 7%nat.
Proof.
  intros Hn. destruct n as [|n]; [lia|].
  destruct (w_db w !! summary_table) as [t|] eqn:Hlook.
  - exists w. pose proof (ensure_schema_present w t Hlook) as He.
    split; [done|]. split; [by apply (ensure_schema_times_present _ _ t)|].
    split; [done|]. split; [by rewrite Hlook|].
    split.
    { apply set_eq. intros x. rewrite elem_of_union, elem_of_singleton.
      split; [tauto|]. intros [->|]; [|done]. apply elem_of_dom. by rewrite Hlook. }
    split; [done|]. split; [done|]. split; [done|].
    split; [|done]. intros Hschema. exists t. split; [done|]. by apply Hschema.
  - pose proof (ensure_schema_absent w Hlook) as He.
    set (w' := with_db w (<[summary_table := mkTable summary_schema []]> (w_db w))) in *.
    assert (Hnew : w_db w' !! summary_table = Some (mkTable summary_schema []))
      by (subst w'; cbn [with_db w_db]; apply lookup_insert_eq).
    exists w'. split; [done|].
    split. { cbn [ensure_schema_times]. rewrite He. cbn [bind fst].
             by apply (ensure_schema_times_present _ _ _ Hnew). }
    split; [by apply (ensure_schema_present _ _ Hnew)|].
    split; [by rewrite Hnew|].
    split; [subst w'; cbn [with_db w_db]; apply dom_insert_L|].
    split. { intros name Hne. subst w'; cbn [with_db w_db]. by rewrite lookup_insert_ne. }
    split; [congruence|]. split; [done|].
    split; [|done]. intros _. by exists (mkTable summary_schema []).
Qed.

(** ** The general aggregator *)


(** ** The domain aggregator *)





(** The amounts a scan averages, by column position. *)
Lemma rows_with_grade_at df wi g :
  column_index "grade" (df_columns df) = Some wi ->
  rows_with_grade df g
  = List.filter (fun row => sql_text_eq (cell_at row wi) g) (df_rows df).
Proof.
  intros Hwi. unfold rows_with_grade. apply List.filter_ext. intros row.
  unfold has_grade, column_of. by rewrite Hwi.
Qed.





Lemma fold_left_filter_skip {A B} (f : A -> B -> A) (keep : B -> bool) rows :
  (forall acc row, keep row = false -> f acc row = acc) ->
  forall acc, fold_left f rows acc = fold_left f (List.filter keep rows) acc.
Proof.
  intros Hskip. induction rows as [|row rows IH]; intros acc; [done|].
  cbn [fold_left List.filter]. destruct (keep row) eqn:Hk.
  - cbn [fold_left]. apply IH.
  - rewrite (Hskip _ _ Hk). apply IH.
Qed.

Lemma scan_avg_tracked df ci wi g key :
  column_index "grade" (df_columns df) = Some wi ->
  In (g, key) grade_outputs ->
  scan_avg (df_rows df) ci wi g = scan_avg (tracked_rows df) ci wi g.
Proof.
  intros Hwi Hin. unfold scan_avg, tracked_rows.
  apply fold_left_filter_skip. intros acc row Hk.
  assert (Hg : has_grade df g row = false).
  { unfold has_tracked_grade in Hk.
    destruct (has_grade df g row) eqn:Hg; [|done].
    assert (existsb (fun go => has_grade df go.1 row) grade_outputs = true).
    { apply existsb_exists. exists (g, key). by split. }
    congruence. }
  unfold has_grade, column_of in Hg. rewrite Hwi in Hg.
  unfold sql_text_eq. by rewrite Hg.
Qed.

(** C7: rows whose grade is outside A, B, C, D contribute to none of the
    four means: two datasets with the same columns that agree once such rows
    are removed give the same result, the same four pushed values
    included. *)
Theorem other_grades_do_not_contribute fs fs' ti datapath df df' :
  read_csv fs datapath = Success df ->
  read_csv fs' datapath = Success df' ->
  df_columns df = df_columns df' ->
  tracked_rows df = tracked_rows df' ->
  _compute_loan_aggregats fs ti datapath
  = _compute_loan_aggregats fs' ti datapath.
Proof.
  intros Hread Hread' Hcols Hrows.
  unfold _compute_loan_aggregats. rewrite Hread, Hread'; cbn [bind].
  unfold sqldf, query; cbn [mapM].
  unfold eval_avg; cbn [assoc sq_from sq_avg sq_where_column sq_where_literal].
  rewrite String.eqb_refl. rewrite <- Hcols.
  destruct (column_index "loan_amount" (df_columns df)) as [ci|]; [|done].
  destruct (column_index "grade" (df_columns df)) as [wi|] eqn:Hwi; [|done].
  assert (Hwi' : column_index "grade" (df_columns df') = Some wi) by congruence.
  assert (Hscan : forall g key, In (g, key) grade_outputs ->
            scan_avg (df_rows df) ci wi g = scan_avg (df_rows df') ci wi g).
  { intros g key Hin.
    rewrite (scan_avg_tracked df ci wi g key Hwi Hin).
    rewrite (scan_avg_tracked df' ci wi g key Hwi' Hin).
    by rewrite Hrows. }
  rewrite (Hscan "A" "mean_loan_a"), (Hscan "B" "mean_loan_b"),
    (Hscan "C" "mean_loan_c"), (Hscan "D" "mean_loan_d");
    [done| cbn; tauto ..].
Qed.

(** ** The statements on the sample worlds *)

Lemma branch_selects_exactly_one_branch_witness :
  _branch (mkTI "branch" {[ ("is_data_local", "is_local") := PyBool true ]})
  = Success "log_data_is_local" /\
  state_of (run_dag directory_only_world) "log_data_is_local" = Some success /\
  state_of (run_dag directory_only_world) "log_data_is_remote" = Some skipped.
Proof.
  assert (Hpull :
    xcom_pull (mkTI "branch" {[ ("is_data_local", "is_local") := PyBool true ]})
      "is_local" "is_data_local" = PyBool true) by (vm_compute; reflexivity).
  assert (Hflag : presence_flag directory_only_world = true)
    by (vm_compute; reflexivity).
  destruct (branch_selects_exactly_one_branch true _ directory_only_world
              Hpull Hflag) as (Hb & _ & _ & Hchosen & Hother).
  split; [exact Hb|]. split; [exact Hchosen | exact Hother].
Defined.



Lemma other_grades_do_not_contribute_witness :
  _compute_loan_aggregats sample_fs sample_ti dataset_path
  = _compute_loan_aggregats sample_fs_more sample_ti dataset_path.
Proof.
  assert (Hread : read_csv sample_fs dataset_path = Success sample_df)
    by (vm_compute; reflexivity).
  assert (Hread' : read_csv sample_fs_more dataset_path = Success sample_df_more)
    by (vm_compute; reflexivity).
  assert (Hcols : df_columns sample_df = df_columns sample_df_more)
    by (vm_compute; reflexivity).
  assert (Hrows : tracked_rows sample_df = tracked_rows sample_df_more)
    by (vm_compute; reflexivity).
  exact (other_grades_do_not_contribute sample_fs sample_fs_more sample_ti
           dataset_path sample_df sample_df_more Hread Hread' Hcols Hrows).
Defined.

Lemma ensure_schema_idempotent_witness :
  exists w',
    execute create_aggregats_table_if_needed empty_world = Success (w', PyNone) /\
    ensure_schema_times 2 empty_world = Success w' /\
    w_db w' !! summary_table = Some (mkTable summary_schema []).
Proof.
  assert (Hn : (1 <= 2)%nat) by lia.
  assert (Habsent : w_db empty_world !! summary_table = None)
    by (vm_compute; reflexivity).
  destruct (ensure_schema_idempotent empty_world 2 Hn)
    as (w' & Honce & Htwice & _ & _ & _ & _ & _ & Hcreated & _ & _).
  exists w'. split; [exact Honce|]. split; [exact Htwice|].
  exact (Hcreated Habsent).
Defined.

Lemma fetch_failure_fails_run_before_aggregation_witness :
  state_of (run_dag empty_world) "compute_general_aggregats"
  = Some upstream_failed /\
  state_of (run_dag empty_world) "compute_loan_aggregats"
  = Some upstream_failed /\
  w_db (run_world (run_dag empty_world)) = w_db empty_world /\
  dagrun_state (run_dag empty_world) = run_failed.
Proof.
  assert (Habsent : os_path_exists (w_fs empty_world) dataset_path = false)
    by (vm_compute; reflexivity).
  assert (Hfailed : state_of (run_dag empty_world) "extract_data_from_s3"
                    = Some failed) by (vm_compute; reflexivity).
  destruct (fetch_failure_fails_run_before_aggregation empty_world
              Habsent Hfailed)
    as (Hgeneral & Hloan & _ & _ & Hdb & _ & _ & _ & Hrun).
  split; [exact Hgeneral|]. split; [exact Hloan|].
  split; [exact Hdb | exact Hrun].
Defined.

(** * Further properties *)

(** ** The presence flag from checker to branch *)

(** X1: the flag the presence checker pushes as task [is_data_local] is the
    one the branch selector pulls: after the checker ran on a path, the
    selector, whatever task pulls, returns the local branch when the path
    exists and the remote branch when it does not; no other XCom entry is
    changed by the checker. *)
Theorem presence_flag_reaches_branch fs xcom datapath tid :
  exists ti',
    _is_data_local fs (mkTI "is_data_local" xcom) datapath = Success ti' /\
    xcom_pull (mkTI tid (ti_xcom ti')) "is_local" "is_data_local"
    = PyBool (os_path_exists fs datapath) /\
    _branch (mkTI tid (ti_xcom ti'))
    = Success (if os_path_exists fs datapath
               then "log_data_is_local" else "log_data_is_remote") /\
    (forall key task, (task, key) <> ("is_data_local", "is_local") ->
       xcom_pull (mkTI tid (ti_xcom ti')) key task
       = xcom_pull (mkTI tid xcom) key task).
Proof.
  eexists. split; [reflexivity|].
  assert (Hpull :
    xcom_pull (mkTI tid (ti_xcom (xcom_push (mkTI "is_data_local" xcom)
                 "is_local" (PyBool (os_path_exists fs datapath)))))
      "is_local" "is_data_local" = PyBool (os_path_exists fs datapath)).
  { unfold xcom_pull, xcom_push; cbn [ti_xcom ti_task_id].
    by rewrite lookup_insert_eq. }
  split; [exact Hpull|]. split; [by apply branch_of_flag|].
  intros key task Hne.
  unfold xcom_pull, xcom_push; cbn [ti_xcom ti_task_id].
  by rewrite lookup_insert_ne.
Qed.

(** ** The fetch *)



(** ** More on the general aggregator *)


(** X4: a successful general aggregator keeps the task id and changes no
    XCom entry other than [nb_lines] and [nb_cols] of its own task. *)
Theorem general_aggregats_frame fs ti datapath ti' :
  _compute_general_aggregats fs ti datapath = Success ti' ->
  ti_task_id ti' = ti_task_id ti /\
  (forall key task,
     ~ (task = ti_task_id ti /\ In key general_keys) ->
     xcom_pull ti' key task = xcom_pull ti key task).
Proof.
  unfold _compute_general_aggregats.
  destruct (read_csv fs datapath) as [df|e]; cbn [bind]; [|discriminate].
  intros [= <-]. split; [reflexivity|].
  intros key task Hother.
  rewrite !xcom_pull_push_ne; [reflexivity| |];
    rewrite ?xcom_push_task_id; intros [= <- <-]; apply Hother;
    (split; [reflexivity | cbn; tauto]).
Qed.

Lemma compute_loan_aggregats_pushes fs ti datapath ti' :
  _compute_loan_aggregats fs ti datapath = Success ti' ->
  exists va vb vc vd,
    ti' = xcom_push
            (xcom_push
               (xcom_push (xcom_push ti "mean_loan_a" va) "mean_loan_b" vb)
               "mean_loan_c" vc)
            "mean_loan_d" vd.
Proof.
  unfold _compute_loan_aggregats.
  destruct (read_csv fs datapath) as [df|e]; cbn [bind]; [|discriminate].
  unfold sqldf, query; cbn [mapM].
  unfold eval_avg; cbn [assoc sq_from sq_avg sq_where_column sq_where_literal].
  rewrite String.eqb_refl.
  destruct (column_index "loan_amount" (df_columns df)) as [ci|];
    [|discriminate].
  destruct (column_index "grade" (df_columns df)) as [wi|]; [|discriminate].
  intros [= <-]. by do 4 eexists.
Qed.

(** ** More on the domain aggregator *)

(** X5: a successful domain aggregator keeps the task id and changes no
    XCom entry other than the four means of its own task. *)
Theorem loan_aggregats_frame fs ti datapath ti' :
  _compute_loan_aggregats fs ti datapath = Success ti' ->
  ti_task_id ti' = ti_task_id ti /\
  (forall key task,
     ~ (task = ti_task_id ti /\ In key loan_keys) ->
     xcom_pull ti' key task = xcom_pull ti key task).
Proof.
  intros Hrun.
  destruct (compute_loan_aggregats_pushes _ _ _ _ Hrun)
    as (va & vb & vc & vd & ->).
  split; [reflexivity|].
  intros key task Hother.
  rewrite !xcom_pull_push_ne; [reflexivity| | | |];
    rewrite ?xcom_push_task_id; intros [= <- <-]; apply Hother;
    (split; [reflexivity | cbn; tauto]).
Qed.



(** ** The insert statement *)

Lemma render_number ti key task q :
  number_of (xcom_pull ti key task) = Some q ->
  render ti (XComPull key task) = ENumber q.
Proof.
  unfold render, number_of.
  destruct (xcom_pull ti key task) as [| [|] | z | q' | s]; try discriminate;
    by intros [= <-].
Qed.

(** X7: on a store that holds a table with the declared schema under the
    name the insert uses, and with the six pulled values all numbers, the
    insert succeeds and appends exactly one row after the rows already
    there: the two counts, the writer's clock, the four means, in the order
    of the columns. *)
Theorem store_aggregats_appends_one_row db now ti t nl nc a b c d :
  db !! insert_target = Some t ->
  tbl_columns t = summary_schema ->
  map (fun e => number_of (xcom_pull ti (fst e) (snd e))) pulled_entries
  = [Some nl; Some nc; Some a; Some b; Some c; Some d] ->
  exec_sql db now ti store_aggregats_sql
  = Success
      (<[insert_target :=
           mkTable summary_schema
             (tbl_rows t
              ++ [[VNumeric nl; VNumeric nc; VTimestamp now;
                   VNumeric a; VNumeric b; VNumeric c; VNumeric d]])]> db).
Proof.
  intros Htable Hschema Hpulled.
  cbn [map pulled_entries fst snd] in Hpulled.
  injection Hpulled as Hnl Hnc Ha Hb Hc Hd.
  unfold store_aggregats_sql, exec_sql.
  change "aggregats_loans_tabble" with insert_target. rewrite Htable.
  cbn [length Nat.eqb map].
  rewrite (render_number _ _ _ _ Hnl), (render_number _ _ _ _ Hnc),
    (render_number _ _ _ _ Ha), (render_number _ _ _ _ Hb),
    (render_number _ _ _ _ Hc), (render_number _ _ _ _ Hd).
  destruct t as [columns rows]; cbn [tbl_columns tbl_rows] in *.
  subst columns. reflexivity.
Qed.




(** ** The world along a run *)

Lemma run_world_skip_all_except dr tid chosen :
  run_world (skip_all_except dr tid chosen) = run_world dr.
Proof.
  unfold skip_all_except.
  generalize (List.filter (fun d => negb (String.eqb d chosen))
                (downstream_ids tid)).
  intros l; revert dr; induction l as [|d l IH]; intros dr; cbn [fold_left];
    [done|]. by rewrite IH.
Qed.

Lemma run_task_world dr t :
  run_world (run_task dr t) = run_world dr \/
  exists ret, execute t (run_world dr) = Success (run_world (run_task dr t), ret).
Proof.
  unfold run_task.
  destruct (state_of dr (task_id t)); [by left|].
  destruct (evaluate_trigger_rule _ _); [|by left].
  destruct (execute t (run_world dr)) as [[w ret]|e]; [|by left].
  right. exists ret. f_equal. f_equal.
  destruct (operator t); try reflexivity.
  destruct ret; try reflexivity.
  by rewrite run_world_skip_all_except.
Qed.

Lemma run_tasks_world_invariant (P : World -> Prop) ts :
  (forall t w w' ret,
     In t ts -> P w -> execute t w = Success (w', ret) -> P w') ->
  forall dr, P (run_world dr) -> P (run_world (fold_left run_task ts dr)).
Proof.
  induction ts as [|t ts IH]; intros Hstep dr HP; cbn [fold_left]; [done|].
  apply IH.
  - intros t' w w' ret Hin. apply Hstep. by right.
  - destruct (run_task_world dr t) as [-> | [ret Hexec]]; [done|].
    apply (Hstep t _ _ ret (or_introl eq_refl) HP Hexec).
Qed.

Lemma call_keeps_stores c op_kwargs tid w w' ret :
  call c op_kwargs tid w = Success (w', ret) ->
  w_db w' = w_db w /\ w_s3 w' = w_s3 w /\ w_now w' = w_now w /\
  (c <> py_extract_from_s3 -> w_fs w' = w_fs w).
Proof.
  unfold call. destruct c;
    repeat match goal with
           | |- context [bind ?r _] =>
               destruct r; cbn [bind]; [|discriminate]
           end;
    intros [= <- <-]; repeat split; try reflexivity; intros H; by destruct H.
Qed.

Lemma execute_create w :
  exists db,
    execute create_aggregats_table_if_needed w = Success (with_db w db, PyNone) /\
    table_rows db summary_table = table_rows (w_db w) summary_table /\
    (forall name, name <> summary_table -> db !! name = w_db w !! name).
Proof.
  unfold execute; cbn [operator create_aggregats_table_if_needed].
  unfold create_aggregats_table_sql, exec_sql.
  change "aggregats_loans_table" with summary_table.
  destruct (w_db w !! summary_table) as [t|] eqn:Hlook; cbn [bind].
  - exists (w_db w). done.
  - eexists. split; [reflexivity|]. split.
    + unfold table_rows. by rewrite lookup_insert_eq, Hlook.
    + intros name Hne. by rewrite lookup_insert_ne.
Qed.

Lemma execute_store w w' ret :
  execute store_aggregats w = Success (w', ret) ->
  w_fs w' = w_fs w /\
  forall name, name <> insert_target -> w_db w' !! name = w_db w !! name.
Proof.
  unfold execute; cbn [operator store_aggregats].
  unfold store_aggregats_sql, exec_sql.
  change "aggregats_loans_tabble" with insert_target.
  destruct (w_db w !! insert_target) as [t|]; cbn [bind]; [|discriminate].
  destruct (_ =? _)%nat; cbn [bind]; [|discriminate].
  destruct (mapM _ _); cbn [bind]; [|discriminate].
  intros [= <- <-]. split; [reflexivity|].
  intros name Hne. cbn [with_db w_db]. by rewrite lookup_insert_ne.
Qed.

Lemma execute_keeps_summary_rows t w w' ret :
  In t dag_tasks ->
  execute t w = Success (w', ret) ->
  table_rows (w_db w') summary_table = table_rows (w_db w) summary_table.
Proof.
  intros Hin Hexec.
  cbn [dag_tasks In] in Hin.
  destruct Hin as [<-|[<-|[<-|[<-|[<-|[<-|[<-|[<-|[<-|[]]]]]]]]]];
    try (unfold execute in Hexec; cbn [operator is_data_local branch
           extract_data_from_s3 compute_general_aggregats
           compute_loan_aggregats task_id] in Hexec;
         apply call_keeps_stores in Hexec as [-> _]; reflexivity);
    try (by injection Hexec as <- <-).
  - destruct (execute_create w) as (db & Hcreate & Hrows & _).
    rewrite Hcreate in Hexec. by injection Hexec as <- <-.
  - apply execute_store in Hexec as [_ Hother].
    unfold table_rows. rewrite Hother; [done|discriminate].
Qed.

(** ** Invariants of a run *)

(** X9: no run appends a row to [aggregats_loans_table]: the rows of that
    table after a run are its rows before the run (none when the run
    created it). *)
Theorem no_run_appends_to_summary_table w :
  table_rows (w_db (run_world (run_dag w))) summary_table
  = table_rows (w_db w) summary_table.
Proof.
  unfold run_dag.
  apply (run_tasks_world_invariant
           (fun w' => table_rows (w_db w') summary_table
                      = table_rows (w_db w) summary_table)); [|done].
  intros t w1 w2 ret Hin Hrows Hexec.
  by rewrite (execute_keeps_summary_rows t w1 w2 ret Hin Hexec).
Qed.

(** ** Runs, case by case *)

Lemma run_task_marks dr t s :
  state_of dr (task_id t) = None ->
  evaluate_trigger_rule (trigger_rule t)
    (map (state_of dr) (upstream_ids (task_id t))) = Mark s ->
  run_task dr t = record_state dr (task_id t) s.
Proof. intros Hnone Hmark. unfold run_task. by rewrite Hnone, Hmark. Qed.

Lemma run_task_executes dr t :
  state_of dr (task_id t) = None ->
  evaluate_trigger_rule (trigger_rule t)
    (map (state_of dr) (upstream_ids (task_id t))) = Run ->
  match operator t with BranchPythonOperator _ => False | _ => True end ->
  run_task dr t
  = match execute t (run_world dr) with
    | Success (w, _) => mkRun w (run_states dr ++ [(task_id t, success)])
    | Failed _ => mkRun (run_world dr) (run_states dr ++ [(task_id t, failed)])
    end.
Proof.
  intros Hnone Hrun Hop. unfold run_task. rewrite Hnone, Hrun.
  destruct (execute t (run_world dr)) as [[w ret]|e]; [|reflexivity].
  by destruct (operator t).
Qed.

Ltac mark_step :=
  erewrite fold_step by (apply run_task_marks; reflexivity);
  cbn -[execute after_presence_check fold_left].

Ltac exec_step :=
  erewrite fold_step by (apply run_task_executes; [reflexivity|reflexivity|exact I]);
  cbn -[execute after_presence_check fold_left].

Lemma execute_python_keeps_db t c op_kwargs w w' ret :
  operator t = PythonOperator c op_kwargs ->
  execute t w = Success (w', ret) ->
  w_db w' = w_db w.
Proof.
  intros Hop Hexec. unfold execute in Hexec. rewrite Hop in Hexec.
  by apply call_keeps_stores in Hexec as [-> _].
Qed.

Lemma execute_store_without_target w :
  w_db w !! insert_target = None ->
  execute store_aggregats w = Failed (UndefinedTable insert_target).
Proof.
  intros Hnone. unfold execute; cbn [operator store_aggregats].
  unfold store_aggregats_sql, exec_sql.
  change "aggregats_loans_tabble" with insert_target. by rewrite Hnone.
Qed.


Ltac in_dag := cbn [dag_tasks In]; repeat (first [left; reflexivity | right]).

Ltac run_step_auto :=
  first
    [ mark_step
    | exec_step;
      match goal with
      | |- context [match execute ?t ?w with _ => _ end] =>
          let H := fresh "Hexec" in
          destruct (execute t w) as [[? ?]|?] eqn:H
      end;
      cbn -[execute after_presence_check fold_left] ].

Ltac run_cases :=
  rewrite run_dag_split;
  let Hflag := fresh "Hflag" in
  destruct (presence_flag _) eqn:Hflag;
  unfold later_tasks; repeat run_step_auto;
  cbn -[execute after_presence_check].

Lemma execute_keeps_target t w w' ret :
  In t dag_tasks -> t <> store_aggregats ->
  execute t w = Success (w', ret) ->
  w_db w' !! insert_target = w_db w !! insert_target.
Proof.
  intros Hin Hne Hexec.
  cbn [dag_tasks In] in Hin.
  destruct Hin as [<-|[<-|[<-|[<-|[<-|[<-|[<-|[<-|[<-|[]]]]]]]]]];
    try (unfold execute in Hexec; cbn [operator is_data_local branch
           extract_data_from_s3 compute_general_aggregats
           compute_loan_aggregats task_id] in Hexec;
         apply call_keeps_stores in Hexec as [-> _]; reflexivity);
    try (by injection Hexec as <- <-).
  - destruct (execute_create w) as (db & Hcreate & _ & Hother).
    rewrite Hcreate in Hexec. injection Hexec as <- <-.
    cbn [with_db w_db]. by apply Hother.
  - done.
Qed.

Lemma execute_keeps_fs t w w' ret :
  In t dag_tasks -> t <> extract_data_from_s3 ->
  execute t w = Success (w', ret) ->
  w_fs w' = w_fs w.
Proof.
  intros Hin Hne Hexec.
  cbn [dag_tasks In] in Hin.
  destruct Hin as [<-|[<-|[<-|[<-|[<-|[<-|[<-|[<-|[<-|[]]]]]]]]]];
    try done;
    try (unfold execute in Hexec; cbn [operator is_data_local branch
           compute_general_aggregats compute_loan_aggregats task_id] in Hexec;
         apply call_keeps_stores in Hexec as (_ & _ & _ & Hfs);
         apply Hfs; discriminate);
    try (by injection Hexec as <- <-).
  - destruct (execute_create w) as (db & Hcreate & _ & _).
    rewrite Hcreate in Hexec. by injection Hexec as <- <-.
  - by apply execute_store in Hexec as [-> _].
Qed.

Ltac chain_target :=
  repeat match goal with
         | H : execute ?t ?w = Success (?w', _) |- context [w_db ?w'] =>
             rewrite (execute_keeps_target t w w' _ ltac:(in_dag)
                        ltac:(discriminate) H)
         end.

Ltac chain_fs :=
  repeat match goal with
         | H : execute ?t ?w = Success (?w', _) |- context [w_fs ?w'] =>
             rewrite (execute_keeps_fs t w w' _ ltac:(in_dag)
                        ltac:(discriminate) H)
         end.

(** X10: on a store without a table named as the insert names it, every
    run ends failed, the insert task itself being failed or never
    reached. *)
Theorem run_fails_without_insert_target w :
  w_db w !! insert_target = None ->
  dagrun_state (run_dag w) = run_failed /\
  (state_of (run_dag w) "store_aggregats" = Some failed \/
   state_of (run_dag w) "store_aggregats" = Some upstream_failed).
Proof.
  intros Hnone. run_cases;
    try (split; [reflexivity | cbn; tauto]);
    exfalso;
    match goal with
    | H : execute store_aggregats ?w4 = Success _ |- _ =>
        rewrite (execute_store_without_target w4) in H; [discriminate|]
    end;
    chain_target; exact Hnone.
Qed.

(** X11: when the destination directory exists the fetch is skipped; the
    file system after a run differs from the one before only if the fetch
    succeeded; the object store is never changed. *)
Theorem only_a_successful_fetch_writes_files w :
  (presence_flag w = true ->
   state_of (run_dag w) "extract_data_from_s3" = Some skipped) /\
  (state_of (run_dag w) "extract_data_from_s3" <> Some success ->
   w_fs (run_world (run_dag w)) = w_fs w) /\
  w_s3 (run_world (run_dag w)) = w_s3 w.
Proof.
  split; [apply extract_state_local|].
  split.
  - run_cases; intros Hnot; try (exfalso; apply Hnot; reflexivity);
      chain_fs; reflexivity.
  - unfold run_dag.
    apply (run_tasks_world_invariant (fun w' => w_s3 w' = w_s3 w)); [|done].
    intros t w1 w2 ret Hin Hs3 Hexec. rewrite <- Hs3.
    cbn [dag_tasks In] in Hin.
    destruct Hin as [<-|[<-|[<-|[<-|[<-|[<-|[<-|[<-|[<-|[]]]]]]]]]];
      try (unfold execute in Hexec; cbn [operator is_data_local branch
             extract_data_from_s3 compute_general_aggregats
             compute_loan_aggregats task_id] in Hexec;
           by apply call_keeps_stores in Hexec as (_ & -> & _));
      try (by injection Hexec as <- <-).
    + destruct (execute_create w1) as (db & Hcreate & _ & _).
      rewrite Hcreate in Hexec. by injection Hexec as <- <-.
    + unfold execute in Hexec; cbn [operator store_aggregats] in Hexec.
      destruct (exec_sql _ _ _ _); cbn [bind] in Hexec; [|discriminate].
      by injection Hexec as <- <-.
Qed.

(** X12: the general aggregator is skipped in no run: it is executed on
    both branches, and it ends [upstream_failed] exactly when the fetch
    failed. *)
Theorem general_aggregator_reached_unless_fetch_failed w :
  state_of (run_dag w) "compute_general_aggregats" <> Some skipped /\
  (state_of (run_dag w) "compute_general_aggregats" = Some upstream_failed
   <-> state_of (run_dag w) "extract_data_from_s3" = Some failed) /\
  (executed (state_of (run_dag w) "compute_general_aggregats") = true
   <-> state_of (run_dag w) "extract_data_from_s3" <> Some failed).
Proof.
  run_cases; cbn;
    (split; [discriminate|]); split; split; intros H;
    try discriminate; try reflexivity; try (exfalso; by apply H).
Qed.

(** X13: when the destination directory exists and the dataset file does
    not, the run takes the local branch, skips the fetch, fails in the
    general aggregator on the missing file and ends failed, the later tasks
    never executing. *)
Theorem directory_without_file_fails_at_aggregation w :
  presence_flag w = true ->
  w_fs w !! dataset_path = None ->
  run_states (run_dag w)
  = [ ("is_data_local", success); ("branch", success);
      ("log_data_is_remote", skipped); ("log_data_is_local", success);
      ("extract_data_from_s3", skipped);
      ("compute_general_aggregats", failed);
      ("compute_loan_aggregats", upstream_failed);
      ("create_table", upstream_failed);
      ("store_aggregats", upstream_failed) ] /\
  execute compute_general_aggregats (after_presence_check w)
  = Failed (FileNotFoundError dataset_path) /\
  dagrun_state (run_dag w) = run_failed.
Proof.
  intros Hflag Habsent.
  assert (Hexec : execute compute_general_aggregats (after_presence_check w)
                  = Failed (FileNotFoundError dataset_path)).
  { unfold execute, call;
      cbn [operator compute_general_aggregats kwarg assoc String.eqb
           Ascii.eqb Bool.eqb bind].
    unfold _compute_general_aggregats, read_csv.
    change (os_path_join DEST_PATH_FILE "loan_data_small.csv") with dataset_path.
    change (w_fs (after_presence_check w)) with (w_fs w).
    by rewrite Habsent. }
  rewrite run_dag_split, Hflag. unfold later_tasks.
  mark_step. exec_step. rewrite Hexec. repeat mark_step. cbn [fold_left].
  repeat split; reflexivity.
Qed.

(** ** Row order *)






(** ** Whole runs *)








(** ** The further statements on the sample worlds *)

Lemma general_aggregats_frame_witness :
  ti_task_id sample_general_result = "compute_general_aggregats" /\
  xcom_pull sample_general_result "is_local" "is_data_local" = PyBool false.
Proof.
  assert (Hrun : _compute_general_aggregats sample_fs
                   (flagged_ti "compute_general_aggregats") dataset_path
                 = Success sample_general_result) by (vm_compute; reflexivity).
  destruct (general_aggregats_frame _ _ _ _ Hrun) as [Hid Hframe].
  split; [exact Hid|].
  rewrite (Hframe "is_local" "is_data_local");
    [reflexivity | intros [Htask _]; discriminate Htask].
Defined.

Lemma loan_aggregats_frame_witness :
  ti_task_id sample_loan_result = "compute_loan_aggregats" /\
  xcom_pull sample_loan_result "is_local" "is_data_local" = PyBool false.
Proof.
  assert (Hrun : _compute_loan_aggregats sample_fs
                   (flagged_ti "compute_loan_aggregats") dataset_path
                 = Success sample_loan_result) by (vm_compute; reflexivity).
  destruct (loan_aggregats_frame _ _ _ _ Hrun) as [Hid Hframe].
  split; [exact Hid|].
  rewrite (Hframe "is_local" "is_data_local");
    [reflexivity | intros [Htask _]; discriminate Htask].
Defined.


Lemma store_aggregats_appends_one_row_witness :
  exec_sql sample_store 7 sample_pushed store_aggregats_sql
  = Success
      (<[insert_target :=
           mkTable summary_schema
             [[VNumeric 4; VNumeric 3; VTimestamp 7; VNumeric 750;
               VNumeric 2000.5; VNumeric 10; VNumeric 20]]]> sample_store).
Proof.
  assert (Htable : sample_store !! insert_target
                   = Some (mkTable summary_schema []))
    by (vm_compute; reflexivity).
  assert (Hpulled :
    map (fun e => number_of (xcom_pull sample_pushed (fst e) (snd e)))
      pulled_entries
    = [Some 4%Q; Some 3%Q; Some 750%Q; Some 2000.5%Q; Some 10%Q; Some 20%Q])
    by (vm_compute; reflexivity).
  exact (store_aggregats_appends_one_row sample_store 7 sample_pushed
           (mkTable summary_schema []) 4 3 750 2000.5 10 20
           Htable eq_refl Hpulled).
Defined.


Lemma run_fails_without_insert_target_witness :
  dagrun_state (run_dag remote_world) = run_failed.
Proof.
  assert (Hnone : w_db remote_world !! insert_target = None)
    by (vm_compute; reflexivity).
  exact (proj1 (run_fails_without_insert_target remote_world Hnone)).
Defined.

Lemma directory_without_file_fails_at_aggregation_witness :
  dagrun_state (run_dag directory_only_world) = run_failed.
Proof.
  assert (Hflag : presence_flag directory_only_world = true)
    by (vm_compute; reflexivity).
  assert (Habsent : w_fs directory_only_world !! dataset_path = None)
    by (vm_compute; reflexivity).
  destruct (directory_without_file_fails_at_aggregation directory_only_world
              Hflag Habsent) as (_ & _ & Hrun).
  exact Hrun.
Defined.



